(** * ectoerror/httperror: a shallow embedding and its properties

    The Go package [httperror] defines one record, [HTTPError], a handful of
    constructors and a family of predicates over Go's [error] interface.
    Values of type [*HTTPError] are pointers: they live in a heap, and
    [AddMetaValue] writes through the pointer.  Inspection goes either
    through a direct type assertion to [*HTTPError] or through the
    standard library's [errors.As], which walks the wrap chain. *)

From Stdlib Require Import Ascii.
From stdpp Require Import base numbers gmap strings pretty list.

Local Open Scope Z_scope.

(** ** net/http: the status constants the package refers to *)

Module http.
Definition StatusOK : Z := 200.
Definition StatusCreated : Z := 201.
Definition StatusAccepted : Z := 202.
Definition StatusNoContent : Z := 204.
Definition StatusMultipleChoices : Z := 300.
Definition StatusBadRequest : Z := 400.
Definition StatusUnauthorized : Z := 401.
Definition StatusForbidden : Z := 403.
Definition StatusNotFound : Z := 404.
Definition StatusTeapot : Z := 418.
Definition StatusInternalServerError : Z := 500.
Definition StatusBadGateway : Z := 502.
Definition StatusServiceUnavailable : Z := 503.
Definition StatusGatewayTimeout : Z := 504.
Definition StatusNetworkAuthenticationRequired : Z := 511.
End http.

(** ** Pointers and error values *)

(** Addresses of allocated [HTTPError] structs. *)
Definition loc := positive.

(** A Go [*HTTPError]: [None] is the nil pointer. *)
Definition ptr := option loc.

(** The values an [error] interface can hold, as far as this package can
    tell them apart:
    - [ErrNil]: the nil interface;
    - [ErrNew]: an error without an [Unwrap] method ([errors.New]);
    - [ErrWrap]: an error with [Unwrap() error] ([fmt.Errorf] with one %w);
    - [ErrJoin]: an error with [Unwrap() []error] ([errors.Join]);
    - [ErrHTTP]: a [*HTTPError] stored in the interface (possibly a nil
      pointer: a typed nil is not a nil interface).
    The first string of the foreign errors is what their [Error()] returns.
    Foreign errors are immutable, so they are values here, not addresses;
    none of them has an [As] method of its own. *)
#[local] Unset Elimination Schemes.
Inductive error : Type :=
  | ErrNil
  | ErrNew (text : string)
  | ErrWrap (text : string) (inner : error)
  | ErrJoin (text : string) (inner : list error)
  | ErrHTTP (p : ptr).
#[local] Set Elimination Schemes.

(** ** Panics *)

Inductive result (A : Type) : Type :=
  | Ok (a : A)
  | Panic.
Arguments Ok {A} a.
Arguments Panic {A}.

Definition rbind {A B} (r : result A) (k : A -> result B) : result B :=
  match r with
  | Ok a => k a
  | Panic => Panic
  end.

#[global] Instance result_ret : MRet result := fun _ a => Ok a.
#[global] Instance result_bind : MBind result := fun _ _ k r => rbind r k.

(** ** errors.As, specialised to a target of type [**HTTPError] *)

Module errors.

(** The loop over [Unwrap() []error]: the first child in which the
    search succeeds decides. *)
Definition first_some {A B} (f : A -> option B) : list A -> option B :=
  fix go (l : list A) : option B :=
    match l with
    | [] => None
    | x :: r =>
        match f x with
        | Some b => Some b
        | None => go r
        end
    end.

(** [As e] is [Some p] when [errors.As(e, &httpErr)] returns true and
    leaves [p] in [httpErr], and [None] when it returns false. *)
Fixpoint As (e : error) : option ptr :=
  match e with
  | ErrNil => None
  | ErrNew _ => None
  | ErrWrap _ inner => As inner
  | ErrJoin _ inner => first_some As inner
  | ErrHTTP p => Some p
  end.

End errors.

(** ** The wrap chain, as a specification of the search

    [walk e] lists the non-nil errors of [e]'s chain in the order a
    depth-first traversal through [Unwrap] meets them.  A [*HTTPError] ends
    its branch: the search never looks below one. *)

Fixpoint walk (e : error) : list error :=
  match e with
  | ErrNil => []
  | ErrNew _ => [e]
  | ErrWrap _ inner => e :: walk inner
  | ErrJoin _ inner => e :: flat_map walk inner
  | ErrHTTP _ => [e]
  end.

(** The pointer held by an [error], when its dynamic type is [*HTTPError]. *)
Definition http_ptr (e : error) : option ptr :=
  match e with
  | ErrHTTP p => Some p
  | _ => None
  end.

(** The [*HTTPError]s of the chain, in traversal order. *)
Definition http_ptrs (e : error) : list ptr := omap http_ptr (walk e).

(** A plain error: no [*HTTPError] anywhere in its chain. *)
Definition plain (e : error) : Prop := Forall (fun x => http_ptr x = None) (walk e).

(** ** fmt.Sprintf, for the verbs the package uses *)

Module fmt.

Inductive arg : Type :=
  | Int (z : Z)
  | Str (s : string).

(** [None] stands for a call outside the fragment (another verb, flags,
    an operand of the wrong type, a wrong number of operands). *)
Fixpoint Sprintf (format : string) (args : list arg) : option string :=
  match format with
  | EmptyString =>
      match args with
      | [] => Some EmptyString
      | _ :: _ => None
      end
  | String c rest =>
      if Ascii.eqb c "%"%char then
        match rest with
        | EmptyString => None
        | String verb rest' =>
            if Ascii.eqb verb "d"%char then
              match args with
              | Int z :: args' => String.app (pretty z) <$> Sprintf rest' args'
              | _ => None
              end
            else if Ascii.eqb verb "s"%char then
              match args with
              | Str s :: args' => String.app s <$> Sprintf rest' args'
              | _ => None
              end
            else if Ascii.eqb verb "%"%char then String "%" <$> Sprintf rest' args
            else None
        end
      else String c <$> Sprintf rest args
  end.

End fmt.

(** [lacks c s]: the character [c] does not occur in [s].  A format that
    lacks the percent sign is a literal. *)
Fixpoint lacks (c : ascii) (s : string) : bool :=
  match s with
  | EmptyString => true
  | String a rest => negb (Ascii.eqb a c) && lacks c rest
  end.

(** ** Package httperror *)

Section httperror.

(** The type of metadata values (Go's [any]). *)
Context {any : Type}.

(** The struct.  [Code] is a Go [int]; the package compares and prints
    codes and computes nothing with them, so they are integers here.
    [Meta] is [None] for Go's nil map, which can be read but not written;
    the constructors always install an empty map. *)
Record HTTPError : Type := mkHTTPError {
  Code : Z;
  Message : string;
  Meta : option (gmap string any);
  err : error
}.

(** The heap of allocated structs. *)
Local Abbreviation heap := (gmap loc HTTPError).

(** [*p]: a nil pointer dereference panics. *)
Definition deref (h : heap) (p : ptr) : result HTTPError :=
  match p with
  | None => Panic
  | Some l =>
      match h !! l with
      | Some v => Ok v
      | None => Panic
      end
  end.

(** [&HTTPError{...}]: a struct at an address not in use. *)
Definition alloc (v : HTTPError) (h : heap) : ptr * heap :=
  let l := fresh (dom h) in (Some l, <[l := v]> h).

Definition NewHTTPError (code : Z) (message : string) (h : heap) : ptr * heap :=
  alloc {| Code := code; Message := message; Meta := Some ∅; err := ErrNil |} h.

Definition Unwrap (h : heap) (e : ptr) : result error :=
  v ← deref h e; mret (err v).

(** The text [fmt.Sprintf] produces for the format of [Error]; the call is
    inside the modelled fragment (lemma [Sprintf_Error_format]). *)
Definition Error_text (v : HTTPError) : string :=
  default EmptyString
    (fmt.Sprintf "[%d] HTTP Error: - %s" [fmt.Int (Code v); fmt.Str (Message v)]).

Definition Error (h : heap) (e : ptr) : result string :=
  v ← deref h e; mret (Error_text v).

(** [err.Error()] through the interface: dynamic dispatch on the value
    held; a method call on the nil interface panics. *)
Definition error_Error (h : heap) (e : error) : result string :=
  match e with
  | ErrNil => Panic
  | ErrNew text => Ok text
  | ErrWrap text _ => Ok text
  | ErrJoin text _ => Ok text
  | ErrHTTP p => Error h p
  end.

Definition WrapError (code : Z) (e : error) (h : heap) : result (ptr * heap) :=
  match e with
  | ErrHTTP httpErr => Ok (httpErr, h)
  | _ =>
      let code := if code =? 0 then http.StatusInternalServerError else code in
      message ← error_Error h e;
      mret (alloc {| Code := code; Message := message; Meta := Some ∅; err := e |} h)
  end.

Definition AddMetaValue (e : ptr) (key : string) (value : any) (h : heap)
  : result (ptr * heap) :=
  match e with
  | None => Panic
  | Some l =>
      match h !! l with
      | None => Panic
      | Some v =>
          match Meta v with
          | None => Panic
          | Some m =>
              let v' := {| Code := Code v; Message := Message v;
                           Meta := Some (<[key := value]> m); err := err v |} in
              Ok (e, <[l := v']> h)
          end
      end
  end.

Definition GetStatusCode (h : heap) (e : error) : result Z :=
  match e with
  | ErrHTTP p => v ← deref h p; mret (Code v)
  | _ => Ok http.StatusInternalServerError
  end.

Definition IsHTTPError (e : error) : bool :=
  match errors.As e with
  | Some _ => true
  | None => false
  end.

Definition ToHTTPError (e : error) (h : heap) : result (ptr * heap) :=
  match e with
  | ErrNil => Ok (None, h)
  | ErrHTTP httpErr => Ok (httpErr, h)
  | _ => code ← GetStatusCode h e; WrapError code e h
  end.

(** [errors.As(err, &httpErr) && test(httpErr)]: the right operand is only
    evaluated when [As] succeeded, and reads through [httpErr]. *)
Definition As_and (h : heap) (e : error) (test : HTTPError -> bool) : result bool :=
  match errors.As e with
  | None => Ok false
  | Some httpErr => v ← deref h httpErr; mret (test v)
  end.

Definition IsOK (h : heap) (e : error) : result bool :=
  As_and h e (fun httpErr => Code httpErr =? http.StatusOK).

Definition IsCreated (h : heap) (e : error) : result bool :=
  As_and h e (fun httpErr => Code httpErr =? http.StatusCreated).

Definition IsAccepted (h : heap) (e : error) : result bool :=
  As_and h e (fun httpErr => Code httpErr =? http.StatusAccepted).

Definition IsNoContent (h : heap) (e : error) : result bool :=
  As_and h e (fun httpErr => Code httpErr =? http.StatusNoContent).

Definition IsBadRequest (h : heap) (e : error) : result bool :=
  As_and h e (fun httpErr => Code httpErr =? http.StatusBadRequest).

Definition IsUnauthorized (h : heap) (e : error) : result bool :=
  As_and h e (fun httpErr => Code httpErr =? http.StatusUnauthorized).

Definition IsForbidden (h : heap) (e : error) : result bool :=
  As_and h e (fun httpErr => Code httpErr =? http.StatusForbidden).

Definition IsNotFound (h : heap) (e : error) : result bool :=
  As_and h e (fun httpErr => Code httpErr =? http.StatusNotFound).

Definition IsInternalServerError (h : heap) (e : error) : result bool :=
  As_and h e (fun httpErr => Code httpErr =? http.StatusInternalServerError).

Definition IsBadGateway (h : heap) (e : error) : result bool :=
  As_and h e (fun httpErr => Code httpErr =? http.StatusBadGateway).

Definition IsServiceUnavailable (h : heap) (e : error) : result bool :=
  As_and h e (fun httpErr => Code httpErr =? http.StatusServiceUnavailable).

Definition IsGatewayTimeout (h : heap) (e : error) : result bool :=
  As_and h e (fun httpErr => Code httpErr =? http.StatusGatewayTimeout).

Definition IsStatus (h : heap) (e : error) (status : Z) : result bool :=
  As_and h e (fun httpErr => Code httpErr =? status).

Definition IsClientError (h : heap) (e : error) : result bool :=
  As_and h e (fun httpErr =>
    (Code httpErr >=? http.StatusBadRequest)
    && (Code httpErr <? http.StatusInternalServerError)).

Definition IsServerError (h : heap) (e : error) : result bool :=
  As_and h e (fun httpErr =>
    (Code httpErr >=? http.StatusInternalServerError)
    && (Code httpErr <? http.StatusNetworkAuthenticationRequired)).

Definition IsError (h : heap) (e : error) : result bool :=
  As_and h e (fun httpErr =>
    (Code httpErr >=? http.StatusBadRequest)
    && (Code httpErr <? http.StatusNetworkAuthenticationRequired)).

Definition IsSuccess (h : heap) (e : error) : result bool :=
  As_and h e (fun httpErr =>
    (Code httpErr >=? http.StatusOK)
    && (Code httpErr <? http.StatusMultipleChoices)).

Definition IsRedirect (h : heap) (e : error) : result bool :=
  As_and h e (fun httpErr =>
    (Code httpErr >=? http.StatusMultipleChoices)
    && (Code httpErr <? http.StatusBadRequest)).


(** [NewHTTPErrorf], for the calls whose format [fmt.Sprintf] models:
    [None] is a call outside that fragment, not a panic. *)
Definition NewHTTPErrorf (code : Z) (format : string) (args : list fmt.arg)
    (h : heap) : option (ptr * heap) :=
  message ← fmt.Sprintf format args;
  Some (alloc {| Code := code; Message := message; Meta := Some ∅;
                 err := ErrNil |} h).

(** ** The first [HTTPError] of a chain

    [first_http h e v]: walking [e]'s chain, the first [*HTTPError] met is a
    non-nil pointer, and [v] is the struct it points to in [h]. *)
Definition first_http (h : heap) (e : error) (v : HTTPError) : Prop :=
  exists l : loc, head (http_ptrs e) = Some (Some l) /\ h !! l = Some v.

(** The invariant of the data model: every struct has a metadata map. *)
Definition meta_present (h : heap) : Prop :=
  forall l v, h !! l = Some v -> is_Some (Meta v).

End httperror.

(** ** Sample values

    Three structs built by the package's own constructor, metadata values
    being strings, and a few chains over them. *)

Module sample.

Definition notExtended : ptr * gmap loc (@HTTPError string) :=
  NewHTTPError 510 "not extended" ∅.

Definition teapot : ptr * gmap loc (@HTTPError string) :=
  NewHTTPError 418 "I'm a teapot" notExtended.2.

Definition forbidden : ptr * gmap loc (@HTTPError string) :=
  NewHTTPError 403 "forbidden" teapot.2.

Definition heap : gmap loc (@HTTPError string) := forbidden.2.

Definition timeout : error := ErrNew "context deadline exceeded".

(** [fmt.Errorf("query: %w", timeout)] *)
Definition query_timeout : error :=
  ErrWrap "query: context deadline exceeded" timeout.

(** An error with [Unwrap() []error] over [timeout] and [notExtended]. *)
Definition joined : error :=
  ErrJoin "context deadline exceeded; [510] HTTP Error: - not extended"
    [timeout; ErrHTTP notExtended.1].

(** [fmt.Errorf("brew: %w", teapot)] *)
Definition wrapped_teapot : error :=
  ErrWrap "brew: [418] HTTP Error: - I'm a teapot" (ErrHTTP teapot.1).

(** [fmt.Errorf("handler: %w", fmt.Errorf("store: %w", forbidden))] *)
Definition wrapped_forbidden : error :=
  ErrWrap "handler: store: [403] HTTP Error: - forbidden"
    (ErrWrap "store: [403] HTTP Error: - forbidden" (ErrHTTP forbidden.1)).

End sample.

(** * Properties *)

Section properties.

Context {any : Type}.

Local Abbreviation heap := (gmap loc (@HTTPError any)).


(** ** Induction over error values

    The hypothesis for a join covers every child. *)
Fixpoint error_induction (P : error -> Prop)
    (HNil : P ErrNil)
    (HNew : forall text, P (ErrNew text))
    (HWrap : forall text inner, P inner -> P (ErrWrap text inner))
    (HJoin : forall text inner, Forall P inner -> P (ErrJoin text inner))
    (HHTTP : forall p, P (ErrHTTP p))
    (e : error) : P e :=
  match e with
  | ErrNil => HNil
  | ErrNew text => HNew text
  | ErrWrap text inner =>
      HWrap text inner (error_induction P HNil HNew HWrap HJoin HHTTP inner)
  | ErrJoin text inner =>
      HJoin text inner
        ((fix children (l : list error) : Forall P l :=
            match l with
            | [] => @List.Forall_nil _ P
            | x :: r =>
                @List.Forall_cons _ P x r
                  (error_induction P HNil HNew HWrap HJoin HHTTP x) (children r)
            end) inner)
  | ErrHTTP p => HHTTP p
  end.

(** ** errors.As finds the first [*HTTPError] of the walk *)

Lemma head_omap_app {A B} (f : A -> option B) (l1 l2 : list A) :
  head (omap f (l1 ++ l2)) =
  match head (omap f l1) with
  | Some b => Some b
  | None => head (omap f l2)
  end.
Proof.
  induction l1 as [|x l1 IH]; simpl; [by destruct (head _)|].
  destruct (f x); simpl; [done|apply IH].
Qed.

Lemma first_some_flat_map (inner : list error) :
  Forall (fun e => errors.As e = head (http_ptrs e)) inner ->
  errors.first_some errors.As inner = head (omap http_ptr (flat_map walk inner)).
Proof.
  induction 1 as [|x r Hx _ IH]; simpl; [done|].
  rewrite head_omap_app, Hx. unfold http_ptrs at 1.
  destruct (head (omap http_ptr (walk x))); [done|apply IH].
Qed.

Lemma As_first (e : error) : errors.As e = head (http_ptrs e).
Proof.
  induction e as [|text|text inner IH|text inner IH|p] using error_induction;
    try done.
  simpl. by apply first_some_flat_map.
Qed.

Lemma As_None_plain (e : error) : errors.As e = None <-> plain e.
Proof.
  rewrite As_first. unfold plain, http_ptrs.
  induction (walk e) as [|x l IH]; simpl.
  - split; [constructor|done].
  - destruct (http_ptr x) eqn:Hx; simpl.
    + split; [done|]. inversion 1; congruence.
    + rewrite IH. split; [by constructor|by inversion 1].
Qed.

Lemma As_top (p : ptr) : errors.As (ErrHTTP p) = Some p.
Proof. reflexivity. Qed.


(** ** The predicates, through what [errors.As] finds *)

Lemma As_and_found (h : heap) (e : error) (test : HTTPError -> bool) (v : HTTPError) :
  first_http h e v -> As_and h e test = Ok (test v).
Proof.
  intros (l & Hl & Hv). unfold As_and. rewrite As_first, Hl. simpl.
  by rewrite Hv.
Qed.

Lemma As_and_plain (h : heap) (e : error) (test : HTTPError -> bool) :
  plain e -> As_and h e test = Ok false.
Proof.
  intros He%As_None_plain. unfold As_and. by rewrite He.
Qed.

Lemma As_and_true (h : heap) (e : error) (test : HTTPError -> bool) :
  As_and h e test = Ok true <-> exists v, first_http h e v /\ test v = true.
Proof.
  split.
  - unfold As_and. destruct (errors.As e) as [[l|]|] eqn:He; simpl; try done.
    destruct (h !! l) as [v|] eqn:Hv; simpl; [|done].
    intros [= Ht]. exists v. split; [|done].
    exists l. by rewrite <- As_first.
  - intros (v & Hv & Ht). by rewrite (As_and_found _ _ _ _ Hv), Ht.
Qed.

Lemma band_test (lo hi c : Z) :
  (c >=? lo) && (c <? hi) = bool_decide (lo <= c < hi).
Proof.
  rewrite Z.geb_leb.
  destruct (Z.leb_spec lo c), (Z.ltb_spec c hi); simpl;
    case_bool_decide; (done || lia).
Qed.

Lemma status_test (c status : Z) : (c =? status) = bool_decide (c = status).
Proof.
  destruct (Z.eqb_spec c status); case_bool_decide; done.
Qed.

Lemma GetStatusCode_not_top (h : heap) (e : error) :
  http_ptr e = None -> GetStatusCode h e = Ok 500.
Proof. by destruct e. Qed.

(** C2. When the first [HTTPError] found in [e]'s chain is [v], each band
    predicate tests [v]'s code against its half-open range: client
    [400, 500), server [500, 511), any error [400, 511), success
    [200, 300), redirect [300, 400); so [IsServerError] holds at 510 and
    fails at 511. *)
Theorem band_predicates_ranges (h : heap) (e : error) (v : HTTPError) :
  first_http h e v ->
  IsClientError h e = Ok (bool_decide (400 <= Code v < 500))
  /\ IsServerError h e = Ok (bool_decide (500 <= Code v < 511))
  /\ IsError h e = Ok (bool_decide (400 <= Code v < 511))
  /\ IsSuccess h e = Ok (bool_decide (200 <= Code v < 300))
  /\ IsRedirect h e = Ok (bool_decide (300 <= Code v < 400))
  /\ (Code v = 510 -> IsServerError h e = Ok true)
  /\ (Code v = 511 -> IsServerError h e = Ok false).
Proof.
  intros Hv.
  unfold IsClientError, IsServerError, IsError, IsSuccess, IsRedirect.
  rewrite !(As_and_found _ _ _ _ Hv), !band_test.
  repeat split; try done.
  - intros ->. done.
  - intros ->. done.
Qed.


(** C4. On a plain error (no [HTTPError] anywhere in the chain) every
    status and band predicate answers false, while [GetStatusCode] on the
    same error answers 500. *)
Theorem predicates_false_on_plain (h : heap) (e : error) :
  plain e ->
  (forall status, IsStatus h e status = Ok false)
  /\ IsOK h e = Ok false
  /\ IsCreated h e = Ok false
  /\ IsAccepted h e = Ok false
  /\ IsNoContent h e = Ok false
  /\ IsBadRequest h e = Ok false
  /\ IsUnauthorized h e = Ok false
  /\ IsForbidden h e = Ok false
  /\ IsNotFound h e = Ok false
  /\ IsInternalServerError h e = Ok false
  /\ IsBadGateway h e = Ok false
  /\ IsServiceUnavailable h e = Ok false
  /\ IsGatewayTimeout h e = Ok false
  /\ IsClientError h e = Ok false
  /\ IsServerError h e = Ok false
  /\ IsError h e = Ok false
  /\ IsSuccess h e = Ok false
  /\ IsRedirect h e = Ok false
  /\ GetStatusCode h e = Ok 500.
Proof.
  intros He.
  repeat match goal with |- _ /\ _ => split end;
    try (intros; by apply As_and_plain).
  apply GetStatusCode_not_top.
  destruct e; try done.
  apply As_None_plain in He. done.
Qed.

(** C5. [IsStatus e status] answers true exactly when an [HTTPError] is
    found in [e]'s chain and the first one found has code [status]; it
    answers false on a plain error and when the code found is different. *)
Theorem IsStatus_iff (h : heap) (e : error) (status : Z) :
  (IsStatus h e status = Ok true <->
     exists v, first_http h e v /\ Code v = status)
  /\ (plain e -> IsStatus h e status = Ok false)
  /\ (forall v, first_http h e v -> Code v <> status ->
        IsStatus h e status = Ok false).
Proof.
  unfold IsStatus. repeat split.
  - intros (v & Hv & Ht)%As_and_true. exists v.
    by rewrite Z.eqb_eq in Ht.
  - intros (v & Hv & Ht). apply As_and_true. exists v.
    by rewrite Z.eqb_eq.
  - apply As_and_plain.
  - intros v Hv Hne. rewrite (As_and_found _ _ _ _ Hv).
    f_equal. by apply Z.eqb_neq.
Qed.

(** C10. On the nil error [IsHTTPError], [IsStatus], every named status
    predicate and every band predicate answer false, and [GetStatusCode]
    answers 500: nil is a plain error for all of them. *)
Theorem nil_is_plain_everywhere (h : heap) (status : Z) :
  plain ErrNil
  /\ IsHTTPError ErrNil = false
  /\ IsStatus h ErrNil status = Ok false
  /\ IsOK h ErrNil = Ok false
  /\ IsCreated h ErrNil = Ok false
  /\ IsAccepted h ErrNil = Ok false
  /\ IsNoContent h ErrNil = Ok false
  /\ IsBadRequest h ErrNil = Ok false
  /\ IsUnauthorized h ErrNil = Ok false
  /\ IsForbidden h ErrNil = Ok false
  /\ IsNotFound h ErrNil = Ok false
  /\ IsInternalServerError h ErrNil = Ok false
  /\ IsBadGateway h ErrNil = Ok false
  /\ IsServiceUnavailable h ErrNil = Ok false
  /\ IsGatewayTimeout h ErrNil = Ok false
  /\ IsClientError h ErrNil = Ok false
  /\ IsServerError h ErrNil = Ok false
  /\ IsError h ErrNil = Ok false
  /\ IsSuccess h ErrNil = Ok false
  /\ IsRedirect h ErrNil = Ok false
  /\ GetStatusCode h ErrNil = Ok 500.
Proof.
  split; [constructor|]. repeat split.
Qed.


(** ** Construction *)

Lemma fresh_unused (h : heap) : h !! fresh (dom h) = None.
Proof. apply not_elem_of_dom, is_fresh. Qed.

Lemma error_Error_foreign (h : heap) (e : error) :
  e <> ErrNil -> http_ptr e = None -> exists text, error_Error h e = Ok text.
Proof. destruct e; simpl; try done; eauto. Qed.

Lemma WrapError_HTTPError (code : Z) (p : ptr) (h : heap) :
  WrapError code (ErrHTTP p) h = Ok (p, h).
Proof. reflexivity. Qed.

Lemma WrapError_foreign (code : Z) (e : error) (h : heap) :
  e <> ErrNil -> http_ptr e = None ->
  exists text,
    error_Error h e = Ok text
    /\ WrapError code e h =
         Ok (alloc {| Code := if code =? 0 then 500 else code; Message := text;
                      Meta := Some ∅; err := e |} h).
Proof.
  intros Hnil Hhttp.
  destruct (error_Error_foreign h e Hnil Hhttp) as [text Htext].
  exists text. split; [done|].
  destruct e; simpl in *; try done; by injection Htext as ->.
Qed.

(** C6. Wrapping a non-nil error that is not an [HTTPError] allocates a
    new struct whose code is 500 when the code given is 0 and the code
    given otherwise, whose message is the error's description, whose
    metadata is empty and whose cause is the error. *)
Theorem WrapError_new (h : heap) (c : Z) (e : error) :
  e <> ErrNil -> http_ptr e = None ->
  exists (l : loc) (v : HTTPError),
    WrapError c e h = Ok (Some l, <[l := v]> h)
    /\ h !! l = None
    /\ (c = 0 -> Code v = 500)
    /\ (c <> 0 -> Code v = c)
    /\ error_Error h e = Ok (Message v)
    /\ Meta v = Some ∅
    /\ err v = e.
Proof.
  intros Hnil Hhttp.
  destruct (WrapError_foreign c e h Hnil Hhttp) as (text & Htext & Hw).
  eexists _, _. split; [exact Hw|].
  split; [apply fresh_unused|]. simpl.
  repeat split; try done.
  - by intros ->.
  - intros Hc. by apply Z.eqb_neq in Hc as ->.
Qed.

(** C3. Wrapping is idempotent: wrapping the result of a wrap again, with
    any code, returns the same pointer and leaves the heap as it was; an
    argument that is an [HTTPError] is returned as it is and the code is
    discarded. *)
Theorem WrapError_idempotent (h : heap) (c1 c2 : Z) (baseErr : error) :
  baseErr <> ErrNil -> http_ptr baseErr = None ->
  (exists (p : ptr) (h1 : heap),
      WrapError c1 baseErr h = Ok (p, h1)
      /\ WrapError c2 (ErrHTTP p) h1 = Ok (p, h1))
  /\ ('(p, h1) ← WrapError c1 baseErr h; WrapError c2 (ErrHTTP p) h1)
     = WrapError c1 baseErr h
  /\ (forall (c : Z) (p : ptr) (h' : heap),
        WrapError c (ErrHTTP p) h' = Ok (p, h')).
Proof.
  intros Hnil Hhttp.
  destruct (WrapError_foreign c1 baseErr h Hnil Hhttp) as (text & _ & Hw).
  rewrite Hw. unfold alloc. repeat split; eauto.
Qed.

(** C7. [ToHTTPError] of nil is nil; of an [HTTPError] it is that very
    pointer, the heap untouched; of a non-nil plain error it is a new
    struct with code 500, the error's description as message and the
    error as cause. *)
Theorem ToHTTPError_cases (h : heap) :
  ToHTTPError ErrNil h = Ok (None, h)
  /\ (forall p : ptr, ToHTTPError (ErrHTTP p) h = Ok (p, h))
  /\ (forall plainErr : error, plainErr <> ErrNil -> plain plainErr ->
        exists (l : loc) (v : HTTPError),
          ToHTTPError plainErr h = Ok (Some l, <[l := v]> h)
          /\ h !! l = None
          /\ Code v = 500
          /\ error_Error h plainErr = Ok (Message v)
          /\ err v = plainErr).
Proof.
  repeat split.
  intros e Hnil He.
  assert (Hhttp : http_ptr e = None).
  { destruct e; try done. by apply As_None_plain in He. }
  destruct (WrapError_foreign 500 e h Hnil Hhttp) as (text & Htext & Hw).
  assert (Ht : ToHTTPError e h = WrapError 500 e h) by (by destruct e).
  rewrite Ht, Hw. eexists _, _. split; [reflexivity|].
  split; [apply fresh_unused|]. by repeat split.
Qed.


(** [Unwrap] gives back what was wrapped, and nil after [NewHTTPError]. *)
Lemma Unwrap_WrapError (h : heap) (c : Z) (e : error) :
  e <> ErrNil -> http_ptr e = None ->
  ('(p, h1) ← WrapError c e h; Unwrap h1 p) = Ok e.
Proof.
  intros Hnil Hhttp.
  destruct (WrapError_foreign c e h Hnil Hhttp) as (text & _ & ->).
  unfold alloc, Unwrap, deref. simpl. by rewrite lookup_insert_eq.
Qed.

Lemma Unwrap_NewHTTPError (h : heap) (code : Z) (message : string) :
  Unwrap (NewHTTPError code message h).2 (NewHTTPError code message h).1
  = Ok ErrNil.
Proof.
  unfold NewHTTPError, alloc, Unwrap, deref. cbn [fst snd].
  by rewrite lookup_insert_eq.
Qed.

(** ** Metadata *)

(** A call to [AddMetaValue] that returns gives back its receiver,
    allocates nothing, and keeps the code, the message and the cause of
    every struct of the heap. *)
Lemma AddMetaValue_frame (h h' : heap) (e e' : ptr) (key : string) (value : any) :
  AddMetaValue e key value h = Ok (e', h') ->
  e' = e
  /\ dom h' = dom h
  /\ forall l v, h !! l = Some v ->
       exists v', h' !! l = Some v'
         /\ Code v' = Code v /\ Message v' = Message v /\ err v' = err v.
Proof.
  unfold AddMetaValue.
  destruct e as [l0|]; [|done].
  destruct (h !! l0) as [v0|] eqn:Hl0; [|done].
  destruct (Meta v0) as [m|]; [|done].
  intros [= <- <-]. split; [done|]. split.
  { rewrite dom_insert_L. apply subseteq_union_1_L, singleton_subseteq_l.
    by eapply elem_of_dom_2. }
  intros l v Hl. destruct (decide (l0 = l)) as [->|Hne].
  - rewrite lookup_insert_eq. eexists. split; [done|].
    rewrite Hl in Hl0. by injection Hl0 as ->.
  - rewrite lookup_insert_ne by done. eauto.
Qed.

Lemma AddMetaValue_ok (h : heap) (l : loc) (v : HTTPError) (m : gmap string any)
    (key : string) (value : any) :
  h !! l = Some v -> Meta v = Some m ->
  AddMetaValue (Some l) key value h =
    Ok (Some l, <[l := {| Code := Code v; Message := Message v;
                          Meta := Some (<[key := value]> m); err := err v |}]> h).
Proof. intros Hl Hm. unfold AddMetaValue. by rewrite Hl, Hm. Qed.

(** C9. On a struct with a non-nil metadata map, [AddMetaValue k x]
    followed by [AddMetaValue k y] both return the receiver and leave [y]
    under [k], with code, message and cause as before; and no call at all
    changes the code, message or cause of any struct. *)
Theorem AddMetaValue_last_write_wins (h : heap) (l : loc) (v : HTTPError)
    (m : gmap string any) (k : string) (x y : any) :
  h !! l = Some v -> Meta v = Some m ->
  (exists (h1 h2 : heap) (v2 : HTTPError),
      AddMetaValue (Some l) k x h = Ok (Some l, h1)
      /\ AddMetaValue (Some l) k y h1 = Ok (Some l, h2)
      /\ h2 !! l = Some v2
      /\ Meta v2 = Some (<[k := y]> m)
      /\ (Meta v2 ≫= (.!! k)) = Some y
      /\ Code v2 = Code v /\ Message v2 = Message v /\ err v2 = err v)
  /\ (forall (h0 h' : heap) (e e' : ptr) (key : string) (value : any),
        AddMetaValue e key value h0 = Ok (e', h') ->
        e' = e
        /\ dom h' = dom h0
        /\ forall l0 v0, h0 !! l0 = Some v0 ->
             exists v', h' !! l0 = Some v'
               /\ Code v' = Code v0 /\ Message v' = Message v0
               /\ err v' = err v0).
Proof.
  intros Hl Hm. split; [|apply AddMetaValue_frame].
  eexists _, _, _.
  split; [by apply AddMetaValue_ok|].
  split; [by apply AddMetaValue_ok; [apply lookup_insert_eq|]|].
  split; [apply lookup_insert_eq|]. simpl.
  rewrite insert_insert_eq, lookup_insert_eq. done.
Qed.

(** ** The metadata map is never nil *)

Lemma meta_present_empty : meta_present (∅ : heap).
Proof. intros l v. by rewrite lookup_empty. Qed.

Lemma meta_present_insert (h : heap) (l : loc) (v : HTTPError) :
  meta_present h -> is_Some (Meta v) -> meta_present (<[l := v]> h).
Proof.
  intros Hh Hv l' v'. destruct (decide (l = l')) as [->|Hne].
  - rewrite lookup_insert_eq. by intros [= <-].
  - rewrite lookup_insert_ne by done. apply Hh.
Qed.

Lemma NewHTTPError_meta_present (code : Z) (message : string) (h : heap) :
  meta_present h -> meta_present (NewHTTPError code message h).2.
Proof. intros Hh. by apply meta_present_insert. Qed.

Lemma WrapError_meta_present (code : Z) (e : error) (h h' : heap) (p : ptr) :
  meta_present h -> WrapError code e h = Ok (p, h') -> meta_present h'.
Proof.
  intros Hh. unfold WrapError.
  destruct e; simpl; try done; try (intros [= <- <-]; by apply meta_present_insert).
  - by intros [= <- <-].
Qed.

Lemma ToHTTPError_meta_present (e : error) (h h' : heap) (p : ptr) :
  meta_present h -> ToHTTPError e h = Ok (p, h') -> meta_present h'.
Proof.
  intros Hh. destruct e; try (by intros [= <- <-]);
    intros Hw; exact (WrapError_meta_present 500 _ _ _ _ Hh Hw).
Qed.

Lemma AddMetaValue_meta_present (e p : ptr) (key : string) (value : any)
    (h h' : heap) :
  meta_present h -> AddMetaValue e key value h = Ok (p, h') -> meta_present h'.
Proof.
  intros Hh. unfold AddMetaValue.
  destruct e as [l|]; [|done].
  destruct (h !! l) as [v|]; [|done].
  destruct (Meta v) as [m|]; [|done].
  intros [= <- <-]. by apply meta_present_insert.
Qed.

(** Under the invariant a call on an allocated struct does not panic. *)
Lemma AddMetaValue_returns (h : heap) (l : loc) (key : string) (value : any) :
  meta_present h -> is_Some (h !! l) ->
  exists h', AddMetaValue (Some l) key value h = Ok (Some l, h').
Proof.
  intros Hh [v Hv]. destruct (Hh l v Hv) as [m Hm].
  eexists. by apply AddMetaValue_ok.
Qed.

(** ** Rendering *)

Lemma app_empty_r (s : string) : String.app s EmptyString = s.
Proof.
  induction s as [|c s IH]; [done|].
  change (String c (String.app s EmptyString) = String c s). by rewrite IH.
Qed.

Lemma Sprintf_Error_format (code : Z) (message : string) :
  fmt.Sprintf "[%d] HTTP Error: - %s" [fmt.Int code; fmt.Str message] =
  Some ("[" +:+ pretty code +:+ "] HTTP Error: - " +:+ message).
Proof. simpl. by rewrite app_empty_r. Qed.

(** C8. The description of an [HTTPError] is exactly an opening bracket,
    the code in decimal, the text "] HTTP Error: - " and the message; for
    code 400 and message "bad request" it is
    "[400] HTTP Error: - bad request". *)
Theorem Error_exact_format (h : heap) (code : Z) (message : string) :
  (forall v : @HTTPError any,
      Error_text v = "[" +:+ pretty (Code v) +:+ "] HTTP Error: - " +:+ Message v)
  /\ (forall (l : loc) (v : HTTPError), h !! l = Some v ->
        Error h (Some l) =
          Ok ("[" +:+ pretty (Code v) +:+ "] HTTP Error: - " +:+ Message v))
  /\ Error (NewHTTPError code message h).2 (NewHTTPError code message h).1 =
       Ok ("[" +:+ pretty code +:+ "] HTTP Error: - " +:+ message)
  /\ Error (NewHTTPError 400 "bad request" h).2
           (NewHTTPError 400 "bad request" h).1 =
       Ok "[400] HTTP Error: - bad request".
Proof.
  assert (Ht : forall v : @HTTPError any,
    Error_text v = "[" +:+ pretty (Code v) +:+ "] HTTP Error: - " +:+ Message v).
  { intros v. unfold Error_text. by rewrite Sprintf_Error_format. }
  assert (Hnew : forall c msg,
    Error (NewHTTPError c msg h).2 (NewHTTPError c msg h).1 =
      Ok ("[" +:+ pretty c +:+ "] HTTP Error: - " +:+ msg)).
  { intros c msg. unfold Error, NewHTTPError, alloc, deref. cbn [fst snd].
    rewrite lookup_insert_eq. apply (f_equal Ok), Ht. }
  repeat split; [done| |done|by rewrite Hnew].
  intros l v Hl. unfold Error, deref. rewrite Hl. apply (f_equal Ok), Ht.
Qed.

End properties.

(** * The properties at the sample values *)

(** C1. [GetStatusCode] asserts the type of the error itself and does not
    walk the chain: on two layers of wrapping around an [HTTPError] with
    code 403, which [errors.As] finds and [IsForbidden] reports, it
    answers 500. *)
Theorem GetStatusCode_misses_wrapped_HTTPError :
  first_http sample.heap sample.wrapped_forbidden
    {| Code := 403; Message := "forbidden"; Meta := Some ∅; err := ErrNil |}
  /\ IsHTTPError sample.wrapped_forbidden = true
  /\ IsForbidden sample.heap sample.wrapped_forbidden = Ok true
  /\ IsStatus sample.heap sample.wrapped_forbidden 403 = Ok true
  /\ IsInternalServerError sample.heap sample.wrapped_forbidden = Ok false
  /\ GetStatusCode sample.heap sample.wrapped_forbidden = Ok 500
  /\ GetStatusCode sample.heap (ErrHTTP sample.forbidden.1) = Ok 403.
Proof.
  split; [exists 3%positive; split; vm_compute; reflexivity|].
  repeat split; vm_compute; reflexivity.
Qed.

Lemma band_predicates_ranges_witness :
  first_http sample.heap sample.joined
    {| Code := 510; Message := "not extended"; Meta := Some ∅; err := ErrNil |}
  /\ IsServerError sample.heap sample.joined = Ok true
  /\ IsClientError sample.heap sample.joined = Ok false.
Proof.
  assert (H : first_http sample.heap sample.joined
    {| Code := 510; Message := "not extended"; Meta := Some ∅; err := ErrNil |}).
  { exists 1%positive. split; vm_compute; reflexivity. }
  split; [exact H|].
  destruct (band_predicates_ranges _ _ _ H) as (Hc & Hs & _).
  split; [exact Hs|exact Hc].
Defined.

Lemma predicates_false_on_plain_witness :
  plain sample.query_timeout
  /\ IsServerError sample.heap sample.query_timeout = Ok false
  /\ GetStatusCode sample.heap sample.query_timeout = Ok 500.
Proof.
  assert (H : plain sample.query_timeout).
  { unfold plain. simpl. repeat constructor. }
  split; [exact H|].
  pose proof (predicates_false_on_plain sample.heap _ H) as Hall.
  split; [apply Hall|apply Hall].
Defined.

Lemma IsStatus_iff_witness :
  (exists v, first_http sample.heap sample.wrapped_teapot v /\ Code v = 418)
  /\ IsStatus sample.heap sample.wrapped_teapot 418 = Ok true.
Proof.
  assert (H : exists v, first_http sample.heap sample.wrapped_teapot v
                        /\ Code v = 418).
  { eexists. split; [exists 2%positive; split; vm_compute; reflexivity|].
    reflexivity. }
  split; [exact H|].
  apply (proj1 (IsStatus_iff sample.heap sample.wrapped_teapot 418)), H.
Defined.

Lemma WrapError_new_witness :
  sample.query_timeout <> ErrNil
  /\ http_ptr sample.query_timeout = None
  /\ exists (l : loc) (v : @HTTPError string),
       WrapError 0 sample.query_timeout sample.heap
         = Ok (Some l, <[l := v]> sample.heap)
       /\ Code v = 500.
Proof.
  assert (H1 : sample.query_timeout <> ErrNil) by discriminate.
  assert (H2 : http_ptr sample.query_timeout = None) by reflexivity.
  split; [exact H1|]. split; [exact H2|].
  destruct (WrapError_new sample.heap 0 _ H1 H2) as (l & v & Hw & _ & Hc & _).
  exists l, v. split; [exact Hw|]. apply Hc. reflexivity.
Defined.

Lemma WrapError_idempotent_witness :
  sample.timeout <> ErrNil
  /\ http_ptr sample.timeout = None
  /\ exists (p : ptr) (h1 : gmap loc (@HTTPError string)),
       WrapError 404 sample.timeout sample.heap = Ok (p, h1)
       /\ WrapError 400 (ErrHTTP p) h1 = Ok (p, h1).
Proof.
  assert (H1 : sample.timeout <> ErrNil) by discriminate.
  assert (H2 : http_ptr sample.timeout = None) by reflexivity.
  split; [exact H1|]. split; [exact H2|].
  exact (proj1 (WrapError_idempotent sample.heap 404 400 _ H1 H2)).
Defined.

Lemma ToHTTPError_cases_witness :
  sample.query_timeout <> ErrNil
  /\ plain sample.query_timeout
  /\ exists (l : loc) (v : @HTTPError string),
       ToHTTPError sample.query_timeout sample.heap
         = Ok (Some l, <[l := v]> sample.heap)
       /\ Code v = 500
       /\ err v = sample.query_timeout.
Proof.
  assert (H1 : sample.query_timeout <> ErrNil) by discriminate.
  assert (H2 : plain sample.query_timeout).
  { unfold plain. simpl. repeat constructor. }
  split; [exact H1|]. split; [exact H2|].
  destruct (ToHTTPError_cases sample.heap) as (_ & _ & Hplain).
  destruct (Hplain _ H1 H2) as (l & v & Ht & _ & Hc & _ & He).
  exists l, v. split; [exact Ht|]. split; [exact Hc|exact He].
Defined.

Lemma AddMetaValue_last_write_wins_witness :
  sample.heap !! 2%positive =
    Some {| Code := 418; Message := "I'm a teapot"; Meta := Some ∅;
            err := ErrNil |}
  /\ exists (h1 h2 : gmap loc (@HTTPError string)) (v2 : @HTTPError string),
       AddMetaValue (Some 2%positive) "user_id" "123" sample.heap
         = Ok (Some 2%positive, h1)
       /\ AddMetaValue (Some 2%positive) "user_id" "456" h1
         = Ok (Some 2%positive, h2)
       /\ h2 !! 2%positive = Some v2
       /\ (Meta v2 ≫= (.!! "user_id")) = Some "456"
       /\ Code v2 = 418.
Proof.
  assert (H : sample.heap !! 2%positive =
    Some {| Code := 418; Message := "I'm a teapot"; Meta := Some ∅;
            err := ErrNil |}) by (vm_compute; reflexivity).
  split; [exact H|].
  destruct (AddMetaValue_last_write_wins sample.heap 2%positive _ ∅
              "user_id" "123" "456" H eq_refl)
    as ((h1 & h2 & v2 & Ha & Hb & Hl & _ & Hk & Hc & _) & _).
  exists h1, h2, v2. repeat split; assumption.
Defined.

Lemma Error_exact_format_witness :
  sample.heap !! 1%positive =
    Some {| Code := 510; Message := "not extended"; Meta := Some ∅;
            err := ErrNil |}
  /\ Error sample.heap (Some 1%positive) = Ok "[510] HTTP Error: - not extended".
Proof.
  assert (H : sample.heap !! 1%positive =
    Some {| Code := 510; Message := "not extended"; Meta := Some ∅;
            err := ErrNil |}) by (vm_compute; reflexivity).
  split; [exact H|].
  destruct (Error_exact_format sample.heap 0 EmptyString) as (_ & He & _).
  exact (He _ _ H).
Defined.

(** * Further properties of the package *)

Section more_properties.

Context {any : Type}.

Local Abbreviation heap := (gmap loc (@HTTPError any)).

(** ** Allocation *)

Lemma alloc_subseteq (v : HTTPError) (h : heap) : h ⊆ (alloc v h).2.
Proof. apply insert_subseteq, fresh_unused. Qed.

Lemma deref_mono (h h' : heap) (p : ptr) (v : HTTPError) :
  h ⊆ h' -> deref h p = Ok v -> deref h' p = Ok v.
Proof.
  intros Hsub. destruct p as [l|]; [|done]. simpl.
  destruct (h !! l) as [w|] eqn:Hl; [|done].
  intros [= ->]. by rewrite (lookup_weaken _ _ _ _ Hl Hsub).
Qed.

Lemma As_and_mono (h h' : heap) (e : error) (test : HTTPError -> bool) (b : bool) :
  h ⊆ h' -> As_and h e test = Ok b -> As_and h' e test = Ok b.
Proof.
  intros Hsub. unfold As_and. destruct (errors.As e) as [p|]; [|done].
  destruct (deref h p) as [v|] eqn:Hp; [|done].
  by rewrite (deref_mono _ _ _ _ Hsub Hp).
Qed.

(** The three constructors only ever add a struct: every struct of the
    heap before the call is in the heap after it, unchanged. *)
Theorem constructors_extend_heap (h h' : heap) (code : Z) (message : string)
    (e : error) (p : ptr) :
  h ⊆ (NewHTTPError code message h).2
  /\ (WrapError code e h = Ok (p, h') -> h ⊆ h')
  /\ (ToHTTPError e h = Ok (p, h') -> h ⊆ h').
Proof.
  assert (Hw : forall c, WrapError c e h = Ok (p, h') -> h ⊆ h').
  { intros c. destruct e; simpl; try done;
      intros [= <- <-]; (done || apply alloc_subseteq). }
  split; [apply alloc_subseteq|]. split; [apply Hw|].
  destruct e; try (by intros [= <- <-]); apply (Hw 500).
Qed.

(** What an inspection function returned on a heap it returns on every
    larger heap: building new errors never changes what the existing ones
    report. *)
Theorem inspection_stable_under_growth (h h' : heap) (e : error) (p : ptr) :
  h ⊆ h' ->
  (forall z, GetStatusCode h e = Ok z -> GetStatusCode h' e = Ok z)
  /\ (forall s b, IsStatus h e s = Ok b -> IsStatus h' e s = Ok b)
  /\ (forall b, IsClientError h e = Ok b -> IsClientError h' e = Ok b)
  /\ (forall b, IsServerError h e = Ok b -> IsServerError h' e = Ok b)
  /\ (forall b, IsError h e = Ok b -> IsError h' e = Ok b)
  /\ (forall b, IsSuccess h e = Ok b -> IsSuccess h' e = Ok b)
  /\ (forall b, IsRedirect h e = Ok b -> IsRedirect h' e = Ok b)
  /\ (forall t, Error h p = Ok t -> Error h' p = Ok t)
  /\ (forall c, Unwrap h p = Ok c -> Unwrap h' p = Ok c).
Proof.
  intros Hsub.
  assert (Hd : forall (A : Type) (f : HTTPError -> A) (q : ptr) (a : A),
    (v ← deref h q; mret (f v)) = Ok a -> (v ← deref h' q; mret (f v)) = Ok a).
  { intros A f q a. destruct (deref h q) as [v|] eqn:Hq; [|done].
    by rewrite (deref_mono _ _ _ _ Hsub Hq). }
  split.
  { intros z. destruct e; try done. apply Hd. }
  repeat split; intros; try (by eapply As_and_mono); by apply Hd.
Qed.

(** [NewHTTPError] followed by each observer: the pointer is non-nil and
    new, the code and the message are the ones given, the cause is nil and
    the metadata map is there and empty. *)
Theorem NewHTTPError_observed (h : heap) (code : Z) (message : string) :
  exists l : loc,
    (NewHTTPError code message h).1 = Some l
    /\ h !! l = None
    /\ let h' := (NewHTTPError code message h).2 in
       GetStatusCode h' (ErrHTTP (Some l)) = Ok code
       /\ IsHTTPError (ErrHTTP (Some l)) = true
       /\ (forall s, IsStatus h' (ErrHTTP (Some l)) s = Ok (bool_decide (code = s)))
       /\ Unwrap h' (Some l) = Ok ErrNil
       /\ (v ← deref h' (Some l); mret (Message v)) = Ok message
       /\ (forall k, (v ← deref h' (Some l); mret (Meta v ≫= (.!! k))) = Ok None)
       /\ (forall k x, exists h'',
             AddMetaValue (Some l) k x h' = Ok (Some l, h'')).
Proof.
  exists (fresh (dom h)). split; [done|]. split; [apply fresh_unused|].
  unfold NewHTTPError, alloc, GetStatusCode, IsStatus, As_and, Unwrap,
    AddMetaValue, deref.
  cbn [fst snd errors.As]. rewrite lookup_insert_eq. simpl.
  repeat split; try done.
  - intros s. by rewrite status_test.
  - intros k x. eauto.
Qed.

(** ** Wrapping and conversion *)


(** [WrapError] followed by each observer, for an error that is not nil
    and not itself a [*HTTPError]: the new struct reports the code given
    (500 for 0) whatever [e]'s own chain holds, renders [e]'s text behind
    that code, and unwraps to [e]. *)
Theorem WrapError_observed (h : heap) (c : Z) (e : error) :
  e <> ErrNil -> http_ptr e = None ->
  exists (l : loc) (h1 : heap) (text : string),
    WrapError c e h = Ok (Some l, h1)
    /\ error_Error h e = Ok text
    /\ let code := if bool_decide (c = 0) then 500 else c in
       GetStatusCode h1 (ErrHTTP (Some l)) = Ok code
       /\ (forall s, IsStatus h1 (ErrHTTP (Some l)) s = Ok (bool_decide (code = s)))
       /\ Error h1 (Some l) = Ok ("[" +:+ pretty code +:+ "] HTTP Error: - " +:+ text)
       /\ error_Error h1 (ErrHTTP (Some l))
            = Ok ("[" +:+ pretty code +:+ "] HTTP Error: - " +:+ text)
       /\ Unwrap h1 (Some l) = Ok e.
Proof.
  intros Hnil Hhttp.
  destruct (WrapError_foreign c e h Hnil Hhttp) as (text & Htext & Hw).
  eexists _, _, text. split; [exact Hw|]. split; [exact Htext|].
  assert (Hc : (if c =? 0 then 500 else c) = if bool_decide (c = 0) then 500 else c).
  { by rewrite status_test. }
  unfold GetStatusCode, IsStatus, As_and, Unwrap, error_Error, Error, deref.
  cbn [errors.As]. rewrite lookup_insert_eq. simpl. rewrite <- Hc.
  repeat split; try done.
  - intros s. by rewrite status_test.
  - unfold Error_text. by rewrite Sprintf_Error_format.
  - unfold Error_text. by rewrite Sprintf_Error_format.
Qed.


(** Converting twice is converting once: the pointer [ToHTTPError]
    returns, put back in an [error], converts to itself with no further
    allocation. *)
Theorem ToHTTPError_idempotent (h : heap) (e : error) :
  ('(p, h1) ← ToHTTPError e h; ToHTTPError (ErrHTTP p) h1) = ToHTTPError e h.
Proof. by destruct e. Qed.

(** On every non-nil error that is not itself a [*HTTPError],
    [ToHTTPError] allocates a struct with code 500 - also when an
    [HTTPError] with another code lies deeper in the chain, because
    [GetStatusCode] only looks at the error itself. *)
Theorem ToHTTPError_wraps_with_500 (h : heap) (e : error) :
  e <> ErrNil -> http_ptr e = None ->
  exists (l : loc) (v : HTTPError),
    ToHTTPError e h = Ok (Some l, <[l := v]> h)
    /\ h !! l = None
    /\ Code v = 500
    /\ error_Error h e = Ok (Message v)
    /\ Meta v = Some ∅
    /\ err v = e
    /\ IsInternalServerError (<[l := v]> h) (ErrHTTP (Some l)) = Ok true.
Proof.
  intros Hnil Hhttp.
  destruct (WrapError_foreign 500 e h Hnil Hhttp) as (text & Htext & Hw).
  assert (Ht : ToHTTPError e h = WrapError 500 e h) by (by destruct e).
  rewrite Ht, Hw. eexists _, _. split; [reflexivity|].
  split; [apply fresh_unused|].
  unfold IsInternalServerError, As_and, deref. cbn [errors.As].
  rewrite lookup_insert_eq. by repeat split.
Qed.

(** ** The predicates together *)

(** [IsHTTPError] answers true exactly when the chain is not plain, and
    whenever [IsStatus] or a band predicate answers true. *)
Theorem IsHTTPError_iff_not_plain (h : heap) (e : error) :
  (IsHTTPError e = false <-> plain e)
  /\ (IsHTTPError e = true <-> ~ plain e)
  /\ (forall s, IsStatus h e s = Ok true -> IsHTTPError e = true)
  /\ (IsError h e = Ok true -> IsHTTPError e = true)
  /\ (IsSuccess h e = Ok true -> IsHTTPError e = true)
  /\ (IsRedirect h e = Ok true -> IsHTTPError e = true).
Proof.
  assert (Hf : IsHTTPError e = false <-> plain e).
  { rewrite <- As_None_plain. unfold IsHTTPError.
    by destruct (errors.As e). }
  assert (Ht : forall test, As_and h e test = Ok true -> IsHTTPError e = true).
  { intros test. unfold As_and, IsHTTPError. by destruct (errors.As e). }
  split; [exact Hf|]. split.
  { rewrite <- Hf. by destruct (IsHTTPError e). }
  repeat split; intros; by eapply Ht.
Qed.

(** [IsError] is the disjunction of [IsClientError] and [IsServerError],
    panics included. *)
Theorem IsError_is_client_or_server (h : heap) (e : error) :
  IsError h e = (a ← IsClientError h e; b ← IsServerError h e; mret (a || b)).
Proof.
  unfold IsError, IsClientError, IsServerError. unfold As_and.
  destruct (errors.As e) as [p|]; simpl; [|done].
  destruct (deref h p) as [v|]; simpl; [|done].
  f_equal. rewrite !band_test.
  unfold http.StatusBadRequest, http.StatusInternalServerError,
    http.StatusNetworkAuthenticationRequired.
  repeat case_bool_decide; simpl; (done || lia).
Qed.

Lemma As_and_both (h : heap) (e : error) (f g : HTTPError -> bool) :
  As_and h e f = Ok true -> As_and h e g = Ok true ->
  exists v, first_http h e v /\ f v = true /\ g v = true.
Proof.
  intros (v & (l & Hl & Hv) & Hf)%As_and_true (w & (l' & Hl' & Hw) & Hg)%As_and_true.
  rewrite Hl in Hl'. injection Hl' as <-. rewrite Hv in Hw. injection Hw as <-.
  exists v. split; [by exists l|done].
Qed.

(** No two of the four bands hold of the same error. *)
Theorem bands_are_disjoint (h : heap) (e : error) :
  ~ (IsSuccess h e = Ok true /\ IsRedirect h e = Ok true)
  /\ ~ (IsSuccess h e = Ok true /\ IsClientError h e = Ok true)
  /\ ~ (IsSuccess h e = Ok true /\ IsServerError h e = Ok true)
  /\ ~ (IsRedirect h e = Ok true /\ IsClientError h e = Ok true)
  /\ ~ (IsRedirect h e = Ok true /\ IsServerError h e = Ok true)
  /\ ~ (IsClientError h e = Ok true /\ IsServerError h e = Ok true).
Proof.
  repeat split; intros [H1 H2];
    destruct (As_and_both _ _ _ _ H1 H2) as (v & _ & Hf & Hg);
    rewrite band_test in Hf, Hg;
    apply bool_decide_eq_true in Hf, Hg; unfold http.StatusOK,
      http.StatusMultipleChoices, http.StatusBadRequest,
      http.StatusInternalServerError,
      http.StatusNetworkAuthenticationRequired in *; lia.
Qed.

(** When the code found lies in [200, 511) one of the four bands holds;
    when it lies outside, none does and [IsError] fails too. *)
Theorem bands_cover_200_to_510 (h : heap) (e : error) (v : HTTPError) :
  first_http h e v ->
  (200 <= Code v < 511 ->
     IsSuccess h e = Ok true \/ IsRedirect h e = Ok true
     \/ IsClientError h e = Ok true \/ IsServerError h e = Ok true)
  /\ (~ 200 <= Code v < 511 ->
        IsSuccess h e = Ok false /\ IsRedirect h e = Ok false
        /\ IsClientError h e = Ok false /\ IsServerError h e = Ok false
        /\ IsError h e = Ok false).
Proof.
  intros Hv.
  unfold IsSuccess, IsRedirect, IsClientError, IsServerError, IsError.
  rewrite !(As_and_found _ _ _ _ Hv), !band_test.
  unfold http.StatusOK, http.StatusMultipleChoices, http.StatusBadRequest,
    http.StatusInternalServerError, http.StatusNetworkAuthenticationRequired.
  split; intros Hr.
  - destruct (decide (Code v < 300)); [left|right].
    { f_equal. apply bool_decide_eq_true. lia. }
    destruct (decide (Code v < 400)); [left|right].
    { f_equal. apply bool_decide_eq_true. lia. }
    destruct (decide (Code v < 500)); [left|right];
      f_equal; apply bool_decide_eq_true; lia.
  - repeat split; f_equal; apply bool_decide_eq_false; lia.
Qed.

Lemma As_and_implies (h : heap) (e : error) (f g : HTTPError -> bool) :
  (forall v, f v = true -> g v = true) ->
  As_and h e f = Ok true -> As_and h e g = Ok true.
Proof.
  intros Hfg (v & Hv & Hf)%As_and_true. apply As_and_true. eauto.
Qed.

Ltac band_of_status :=
  apply As_and_implies; intros v Hv%Z.eqb_eq; rewrite Hv; reflexivity.

(** Every named status predicate implies its band: the four 2xx ones
    [IsSuccess], the four 4xx ones [IsClientError] and [IsError], the four
    5xx ones [IsServerError] and [IsError]. *)
Theorem named_status_implies_band (h : heap) (e : error) :
  (IsOK h e = Ok true \/ IsCreated h e = Ok true
   \/ IsAccepted h e = Ok true \/ IsNoContent h e = Ok true ->
     IsSuccess h e = Ok true)
  /\ (IsBadRequest h e = Ok true \/ IsUnauthorized h e = Ok true
      \/ IsForbidden h e = Ok true \/ IsNotFound h e = Ok true ->
     IsClientError h e = Ok true /\ IsError h e = Ok true)
  /\ (IsInternalServerError h e = Ok true \/ IsBadGateway h e = Ok true
      \/ IsServiceUnavailable h e = Ok true \/ IsGatewayTimeout h e = Ok true ->
     IsServerError h e = Ok true /\ IsError h e = Ok true).
Proof.
  split; [|split].
  - intros [H|[H|[H|H]]]; revert H; band_of_status.
  - intros [H|[H|[H|H]]]; split; revert H; band_of_status.
  - intros [H|[H|[H|H]]]; split; revert H; band_of_status.
Qed.

(** An error has at most one status: once [IsStatus] holds at a code it
    returns, at every code, whether that code is the same; so no two named
    status predicates hold together. *)
Theorem IsStatus_at_most_one (h : heap) (e : error) (s1 : Z) :
  IsStatus h e s1 = Ok true ->
  forall s2, IsStatus h e s2 = Ok (bool_decide (s1 = s2)).
Proof.
  intros (v & Hv & Hs%Z.eqb_eq)%As_and_true s2.
  unfold IsStatus. by rewrite (As_and_found _ _ _ _ Hv), status_test, Hs.
Qed.

(** Where [GetStatusCode] and [IsStatus] agree: a code other than 500
    returned by [GetStatusCode] is confirmed by [IsStatus], and on an error
    that is itself a [*HTTPError] the two say the same at every code. *)
Theorem GetStatusCode_confirmed_by_IsStatus (h : heap) (e : error) (s : Z) :
  (GetStatusCode h e = Ok s -> s <> 500 -> IsStatus h e s = Ok true)
  /\ (forall p, IsStatus h (ErrHTTP p) s = Ok true
                <-> GetStatusCode h (ErrHTTP p) = Ok s).
Proof.
  assert (Htop : forall p, IsStatus h (ErrHTTP p) s = Ok true
                           <-> GetStatusCode h (ErrHTTP p) = Ok s).
  { intros p. unfold IsStatus, As_and, GetStatusCode. cbn [errors.As].
    destruct (deref h p) as [v|]; simpl; [|done].
    split.
    - intros [= Hs%Z.eqb_eq]. by rewrite Hs.
    - intros [= <-]. by rewrite Z.eqb_refl. }
  split; [|exact Htop].
  destruct e; try (by intros [= <-]). intros Hg _. by apply Htop.
Qed.


Lemma first_some_skip (l1 l2 : list error) (x : error) :
  Forall plain l1 ->
  errors.first_some errors.As (l1 ++ x :: l2) =
  match errors.As x with
  | Some p => Some p
  | None => errors.first_some errors.As l2
  end.
Proof.
  induction 1 as [|y l1 Hy%As_None_plain _ IH]; simpl; [done|].
  by rewrite Hy.
Qed.

(** In an error with several children the first child that is not plain
    decides: the plain children before it and all children after it do
    not matter to any predicate. *)
Theorem join_first_http_child_decides (h : heap) (text : string)
    (before after : list error) (x : error) :
  Forall plain before -> ~ plain x ->
  let j := ErrJoin text (before ++ x :: after) in
  IsHTTPError j = true
  /\ (forall s, IsStatus h j s = IsStatus h x s)
  /\ IsClientError h j = IsClientError h x
  /\ IsServerError h j = IsServerError h x
  /\ IsError h j = IsError h x
  /\ IsSuccess h j = IsSuccess h x
  /\ IsRedirect h j = IsRedirect h x
  /\ GetStatusCode h j = Ok 500.
Proof.
  intros Hb Hx.
  assert (Has : errors.As (ErrJoin text (before ++ x :: after)) = errors.As x).
  { simpl. rewrite (first_some_skip _ _ _ Hb).
    destruct (errors.As x) eqn:Hp; [done|]. by apply As_None_plain in Hp. }
  cbv zeta. unfold IsHTTPError, IsStatus, IsClientError, IsServerError, IsError,
    IsSuccess, IsRedirect, As_and. rewrite Has.
  repeat split. destruct (errors.As x) eqn:Hp; [done|].
  by apply As_None_plain in Hp.
Qed.

(** A typed nil [*HTTPError] met first in the chain: [IsHTTPError] answers
    true, while [IsStatus] and the band predicates panic on reading the
    code. *)
Theorem typed_nil_in_chain (h : heap) (e : error) :
  head (http_ptrs e) = Some None ->
  IsHTTPError e = true
  /\ (forall s, IsStatus h e s = Panic)
  /\ IsClientError h e = Panic
  /\ IsServerError h e = Panic
  /\ IsError h e = Panic
  /\ IsSuccess h e = Panic
  /\ IsRedirect h e = Panic
  /\ (GetStatusCode h e = Panic <-> e = ErrHTTP None).
Proof.
  rewrite <- As_first. intros Has.
  unfold IsHTTPError, IsStatus, IsClientError, IsServerError, IsError,
    IsSuccess, IsRedirect, As_and. rewrite Has.
  repeat split; try done.
  - destruct e; try done. simpl in Has. by injection Has as ->.
  - by intros ->.
Qed.

(** ** Metadata, further *)

(** [AddMetaValue] panics exactly on a nil receiver and on a struct whose
    metadata map is nil. *)
Theorem AddMetaValue_panics_iff (h : heap) (e : ptr) (key : string) (value : any) :
  AddMetaValue e key value h = Panic
  <-> deref h e = Panic \/ exists v, deref h e = Ok v /\ Meta v = None.
Proof.
  unfold AddMetaValue, deref. destruct e as [l|]; [|by split; auto].
  destruct (h !! l) as [v|]; [|by split; auto].
  destruct (Meta v) as [m|] eqn:Hm.
  - split; [done|]. intros [|(w & [= <-] & Hw)]; congruence.
  - split; [|done]. intros _. right. eauto.
Qed.

(** A write under one key leaves every other key of the same map, and
    every other struct with its map, as they were. *)
Theorem AddMetaValue_touches_one_key (h h' : heap) (l : loc) (v : HTTPError)
    (m : gmap string any) (key : string) (value : any) (p : ptr) :
  h !! l = Some v -> Meta v = Some m ->
  AddMetaValue (Some l) key value h = Ok (p, h') ->
  (exists v', h' !! l = Some v'
      /\ Meta v' = Some (<[key := value]> m)
      /\ forall k, k <> key -> (Meta v' ≫= (.!! k)) = m !! k)
  /\ (forall l', l' <> l -> h' !! l' = h !! l').
Proof.
  intros Hl Hm. rewrite (AddMetaValue_ok _ _ _ _ _ _ Hl Hm).
  intros [= <- <-]. split.
  - eexists. split; [apply lookup_insert_eq|]. split; [done|].
    intros k Hk. simpl. by rewrite lookup_insert_ne.
  - intros l' Hl'. by rewrite lookup_insert_ne.
Qed.

Lemma AddMetaValue_twice (h : heap) (e : ptr) (k1 k2 : string) (x y : any) :
  ('(p, h1) ← AddMetaValue e k1 x h; AddMetaValue p k2 y h1) =
  match e with
  | None => Panic
  | Some l =>
      match h !! l with
      | None => Panic
      | Some v =>
          match Meta v with
          | None => Panic
          | Some m =>
              Ok (e, <[l := {| Code := Code v; Message := Message v;
                               Meta := Some (<[k2 := y]> (<[k1 := x]> m));
                               err := err v |}]> h)
          end
      end
  end.
Proof.
  unfold AddMetaValue. destruct e as [l|]; [|done].
  destruct (h !! l) as [v|]; [|done].
  destruct (Meta v) as [m|]; [|done]. simpl.
  rewrite lookup_insert_eq. simpl. by rewrite insert_insert_eq.
Qed.

(** Writes under different keys commute: either order gives the same
    heap, or both panic. *)
Theorem AddMetaValue_commutes (h : heap) (e : ptr) (k1 k2 : string) (x y : any) :
  k1 <> k2 ->
  ('(p, h1) ← AddMetaValue e k1 x h; AddMetaValue p k2 y h1)
  = ('(p, h1) ← AddMetaValue e k2 y h; AddMetaValue p k1 x h1).
Proof.
  intros Hk. rewrite !AddMetaValue_twice.
  destruct e as [l|]; [|done]. destruct (h !! l) as [v|]; [|done].
  destruct (Meta v) as [m|]; [|done].
  by rewrite (insert_insert_ne m k1 k2) by done.
Qed.

(** Writing the same value under the same key again changes nothing. *)
Theorem AddMetaValue_same_write_twice (h : heap) (e : ptr) (k : string) (x : any) :
  ('(p, h1) ← AddMetaValue e k x h; AddMetaValue p k x h1)
  = AddMetaValue e k x h.
Proof.
  rewrite AddMetaValue_twice. unfold AddMetaValue.
  destruct e as [l|]; [|done]. destruct (h !! l) as [v|]; [|done].
  destruct (Meta v) as [m|]; [|done]. by rewrite insert_insert_eq.
Qed.

Lemma AddMetaValue_deref (h h' : heap) (e e' : ptr) (key : string) (value : any)
    (A : Type) (f : HTTPError -> A) :
  AddMetaValue e key value h = Ok (e', h') ->
  (forall v m, f v = f {| Code := Code v; Message := Message v;
                          Meta := m; err := err v |}) ->
  forall q, (v ← deref h' q; mret (f v)) = (v ← deref h q; mret (f v)).
Proof.
  unfold AddMetaValue. destruct e as [l|]; [|done].
  destruct (h !! l) as [v|] eqn:Hl; [|done].
  destruct (Meta v) as [m|]; [|done].
  intros [= <- <-] Hf [l'|]; [|done]. simpl.
  destruct (decide (l = l')) as [<-|Hne].
  - rewrite lookup_insert_eq, Hl. simpl. by rewrite <- Hf.
  - by rewrite lookup_insert_ne.
Qed.

(** Attaching metadata changes nothing any inspection function reports:
    the code, the bands, the rendered text and the cause of every error
    are as before. *)
Theorem AddMetaValue_keeps_inspection (h h' : heap) (e e' : ptr)
    (key : string) (value : any) :
  AddMetaValue e key value h = Ok (e', h') ->
  forall (q : error) (p : ptr),
    GetStatusCode h' q = GetStatusCode h q
    /\ (forall s, IsStatus h' q s = IsStatus h q s)
    /\ IsClientError h' q = IsClientError h q
    /\ IsServerError h' q = IsServerError h q
    /\ IsError h' q = IsError h q
    /\ IsSuccess h' q = IsSuccess h q
    /\ IsRedirect h' q = IsRedirect h q
    /\ Error h' p = Error h p
    /\ Unwrap h' p = Unwrap h p.
Proof.
  intros Ha q p.
  pose proof (fun A f => AddMetaValue_deref _ _ _ _ _ _ A f Ha) as Hd.
  assert (Hp : forall test : HTTPError -> bool,
    (forall v m, test v = test {| Code := Code v; Message := Message v;
                                  Meta := m; err := err v |}) ->
    As_and h' q test = As_and h q test).
  { intros test Ht. unfold As_and. destruct (errors.As q); [|done].
    by apply Hd. }
  split.
  { destruct q; try done. by apply Hd. }
  repeat split; intros; try (by apply Hp); by apply Hd.
Qed.

(** The metadata map is never nil on a heap built by the package: the
    invariant holds of the empty heap, every operation keeps it, and under
    it [AddMetaValue] on an allocated struct returns. *)
Theorem Meta_is_never_nil (h h' : heap) (p q : ptr) :
  meta_present (∅ : heap)
  /\ (meta_present h ->
      (forall code message, meta_present (NewHTTPError code message h).2)
      /\ (forall code e, WrapError code e h = Ok (p, h') -> meta_present h')
      /\ (forall e, ToHTTPError e h = Ok (p, h') -> meta_present h')
      /\ (forall key value,
            AddMetaValue q key value h = Ok (p, h') -> meta_present h')
      /\ (forall l key value, is_Some (h !! l) ->
            exists h1, AddMetaValue (Some l) key value h = Ok (Some l, h1))).
Proof.
  split; [apply meta_present_empty|]. intros Hh.
  split; [intros; by apply NewHTTPError_meta_present|].
  split; [intros; by eapply WrapError_meta_present|].
  split; [intros; by eapply ToHTTPError_meta_present|].
  split; [intros; by eapply AddMetaValue_meta_present|].
  intros. by apply AddMetaValue_returns.
Qed.

(** ** Formatting *)

Lemma Sprintf_literal_prefix (pre rest : string) (args : list fmt.arg) :
  lacks "%" pre = true ->
  fmt.Sprintf (pre +:+ rest) args = String.app pre <$> fmt.Sprintf rest args.
Proof.
  induction pre as [|c pre IH]; intros Hpre.
  - change (EmptyString +:+ rest) with rest. by destruct (fmt.Sprintf rest args).
  - simpl in Hpre. apply andb_true_iff in Hpre as [Hc Hpre].
    apply negb_true_iff in Hc.
    change (String c pre +:+ rest) with (String c (pre +:+ rest)).
    cbn [fmt.Sprintf]. rewrite Hc, (IH Hpre).
    by destruct (fmt.Sprintf rest args).
Qed.

Lemma Sprintf_literal (s : string) :
  lacks "%" s = true -> fmt.Sprintf s [] = Some s.
Proof.
  intros Hs. rewrite <- (app_empty_r s) at 1.
  rewrite (Sprintf_literal_prefix _ _ _ Hs). simpl. by rewrite app_empty_r.
Qed.

(** The message [NewHTTPErrorf] builds: a format without a verb is taken
    as it is; one [%d] or [%s] between two literals is replaced by the
    decimal of the integer or by the string; the struct is the one
    [NewHTTPError] builds from that message. *)
Theorem NewHTTPErrorf_message (h : heap) (code : Z) (pre post : string) :
  lacks "%" pre = true -> lacks "%" post = true ->
  NewHTTPErrorf code pre [] h = Some (NewHTTPError code pre h)
  /\ (forall z, NewHTTPErrorf code (pre +:+ "%d" +:+ post) [fmt.Int z] h
               = Some (NewHTTPError code (pre +:+ pretty z +:+ post) h))
  /\ (forall m, NewHTTPErrorf code (pre +:+ "%s" +:+ post) [fmt.Str m] h
               = Some (NewHTTPError code (pre +:+ m +:+ post) h)).
Proof.
  intros Hpre Hpost.
  assert (Hd : forall z, fmt.Sprintf (pre +:+ "%d" +:+ post) [fmt.Int z]
                         = Some (pre +:+ pretty z +:+ post)).
  { intros z. rewrite Sprintf_literal_prefix by done.
    change ("%d" +:+ post) with (String "%" (String "d" post)).
    cbn. by rewrite (Sprintf_literal post Hpost). }
  assert (Hs : forall m, fmt.Sprintf (pre +:+ "%s" +:+ post) [fmt.Str m]
                         = Some (pre +:+ m +:+ post)).
  { intros m. rewrite Sprintf_literal_prefix by done.
    change ("%s" +:+ post) with (String "%" (String "s" post)).
    cbn. by rewrite (Sprintf_literal post Hpost). }
  unfold NewHTTPErrorf, NewHTTPError.
  rewrite (Sprintf_literal pre Hpre).
  repeat split; try done.
  - intros z. by rewrite Hd.
  - intros m. by rewrite Hs.
Qed.

Lemma split_at_first (c : ascii) (s1 s2 t1 t2 : string) :
  lacks c s1 = true -> lacks c s2 = true ->
  s1 +:+ String c t1 = s2 +:+ String c t2 -> s1 = s2 /\ t1 = t2.
Proof.
  revert s2. induction s1 as [|a s1 IH]; intros [|b s2] H1 H2;
    simpl in H1, H2;
    repeat match goal with
    | H : _ && _ = true |- _ => apply andb_true_iff in H as [? ?]
    | H : negb _ = true |- _ => apply negb_true_iff, Ascii.eqb_neq in H
    end.
  - by intros [= ->].
  - intros [= <- _]. done.
  - intros [= -> _]. done.
  - intros [= -> Hrest]. destruct (IH s2) as [-> ->]; done.
Qed.

Lemma pretty_N_go_lacks (c : ascii) (x : N) (s : string) :
  (forall d : N, pretty_N_char d <> c) ->
  lacks c s = true -> lacks c (pretty_N_go x s) = true.
Proof.
  intros Hc. revert s.
  induction (N.lt_wf_0 x) as [x _ IH]; intros s Hs.
  assert (x = 0 \/ 0 < x)%N as [->|Hx] by lia.
  - by rewrite pretty_N_go_0.
  - rewrite pretty_N_go_step by done. apply IH.
    + by apply N.div_lt.
    + simpl. rewrite Hs. specialize (Hc (x `mod` 10)%N).
      apply Ascii.eqb_neq in Hc. by rewrite Hc.
Qed.

Lemma pretty_Z_lacks_bracket (z : Z) : lacks "]" (pretty z) = true.
Proof.
  assert (Hd : forall d : N, pretty_N_char d <> "]"%char).
  { intros d. unfold pretty_N_char. by repeat case_match. }
  assert (Hn : forall n : N, lacks "]" (pretty n) = true).
  { intros n. unfold pretty, pretty_N. case_decide; [done|].
    by apply pretty_N_go_lacks. }
  destruct z as [|p|p]; [done|apply (Hn (N.pos p))|].
  change (pretty (Z.neg p)) with ("-" +:+ pretty (N.pos p)).
  simpl. apply (Hn (N.pos p)).
Qed.

(** The rendered text determines the code and the message: two structs
    with the same description have the same code and the same message. *)
Theorem Error_text_determines_code_and_message (h : heap) (p1 p2 : ptr)
    (text : string) :
  (forall v1 v2 : @HTTPError any,
      Error_text v1 = Error_text v2 ->
      Code v1 = Code v2 /\ Message v1 = Message v2)
  /\ (Error h p1 = Ok text -> Error h p2 = Ok text ->
      exists v1 v2, deref h p1 = Ok v1 /\ deref h p2 = Ok v2
                    /\ Code v1 = Code v2 /\ Message v1 = Message v2).
Proof.
  assert (Hinj : forall v1 v2 : @HTTPError any,
    Error_text v1 = Error_text v2 ->
    Code v1 = Code v2 /\ Message v1 = Message v2).
  { intros v1 v2. unfold Error_text. rewrite !Sprintf_Error_format. simpl.
    intros [= Heq].
    apply split_at_first in Heq as [Hc Hm]; try apply pretty_Z_lacks_bracket.
    split; [by apply (inj pretty)|].
    by injection Hm. }
  split; [exact Hinj|].
  unfold Error. destruct (deref h p1) as [v1|]; [|done].
  destruct (deref h p2) as [v2|]; [|done].
  intros H1 H2.
  change (Ok (Error_text v1) = Ok text) in H1.
  change (Ok (Error_text v2) = Ok text) in H2.
  exists v1, v2. split; [done|]. split; [done|]. apply Hinj. congruence.
Qed.

End more_properties.

(** * The further properties at the sample values *)

Lemma sample_heap_grows : sample.notExtended.2 ⊆ sample.heap.
Proof.
  transitivity sample.teapot.2; apply alloc_subseteq.
Qed.

Lemma sample_heap_meta_present : meta_present sample.heap.
Proof.
  repeat apply NewHTTPError_meta_present. apply meta_present_empty.
Qed.

Lemma sample_teapot_struct :
  sample.heap !! 2%positive =
    Some {| Code := 418; Message := "I'm a teapot"; Meta := Some ∅;
            err := ErrNil |}.
Proof. vm_compute. reflexivity. Qed.

Lemma sample_teapot_tagged :
  AddMetaValue (Some 2%positive) "user_id" "123" sample.heap =
    Ok (Some 2%positive,
        <[2%positive := {| Code := 418; Message := "I'm a teapot";
                           Meta := Some (<["user_id" := "123"]> ∅);
                           err := ErrNil |}]> sample.heap).
Proof. by rewrite (AddMetaValue_ok _ _ _ _ _ _ sample_teapot_struct eq_refl). Qed.

Lemma constructors_extend_heap_witness :
  WrapError 404 sample.timeout sample.heap =
    Ok (alloc {| Code := 404; Message := "context deadline exceeded";
                 Meta := Some ∅; err := sample.timeout |} sample.heap)
  /\ sample.heap ⊆
       (alloc {| Code := 404; Message := "context deadline exceeded";
                 Meta := Some ∅; err := sample.timeout |} sample.heap).2.
Proof.
  assert (H : WrapError 404 sample.timeout sample.heap =
    Ok (alloc {| Code := 404; Message := "context deadline exceeded";
                 Meta := Some ∅; err := sample.timeout |} sample.heap))
    by reflexivity.
  split; [exact H|].
  exact (proj1 (proj2 (constructors_extend_heap sample.heap _ 404 EmptyString
                         sample.timeout _)) H).
Defined.

Lemma inspection_stable_under_growth_witness :
  sample.notExtended.2 ⊆ sample.heap
  /\ IsServerError sample.heap sample.joined = Ok true.
Proof.
  split; [exact sample_heap_grows|].
  destruct (inspection_stable_under_growth _ _ sample.joined None
              sample_heap_grows) as (_ & _ & _ & Hs & _).
  apply Hs. vm_compute. reflexivity.
Defined.

Lemma WrapError_observed_witness :
  sample.wrapped_forbidden <> ErrNil
  /\ http_ptr sample.wrapped_forbidden = None
  /\ exists (l : loc) (h1 : gmap loc (@HTTPError string)),
       WrapError 0 sample.wrapped_forbidden sample.heap = Ok (Some l, h1)
       /\ GetStatusCode h1 (ErrHTTP (Some l)) = Ok 500
       /\ Unwrap h1 (Some l) = Ok sample.wrapped_forbidden.
Proof.
  assert (H1 : sample.wrapped_forbidden <> ErrNil) by discriminate.
  assert (H2 : http_ptr sample.wrapped_forbidden = None) by reflexivity.
  split; [exact H1|]. split; [exact H2|].
  destruct (WrapError_observed sample.heap 0 _ H1 H2)
    as (l & h1 & text & Hw & _ & Hg & _ & _ & _ & Hu).
  exists l, h1. split; [exact Hw|]. split; [exact Hg|exact Hu].
Defined.

Lemma ToHTTPError_wraps_with_500_witness :
  sample.wrapped_forbidden <> ErrNil
  /\ http_ptr sample.wrapped_forbidden = None
  /\ IsForbidden sample.heap sample.wrapped_forbidden = Ok true
  /\ exists (l : loc) (v : @HTTPError string),
       ToHTTPError sample.wrapped_forbidden sample.heap
         = Ok (Some l, <[l := v]> sample.heap)
       /\ Code v = 500.
Proof.
  assert (H1 : sample.wrapped_forbidden <> ErrNil) by discriminate.
  assert (H2 : http_ptr sample.wrapped_forbidden = None) by reflexivity.
  split; [exact H1|]. split; [exact H2|].
  split; [vm_compute; reflexivity|].
  destruct (ToHTTPError_wraps_with_500 sample.heap _ H1 H2)
    as (l & v & Ht & _ & Hc & _).
  exists l, v. split; [exact Ht|exact Hc].
Defined.

Lemma IsHTTPError_iff_not_plain_witness :
  ~ plain sample.wrapped_teapot /\ IsHTTPError sample.wrapped_teapot = true.
Proof.
  assert (H : ~ plain sample.wrapped_teapot).
  { intros Hp. apply As_None_plain in Hp. discriminate Hp. }
  split; [exact H|].
  destruct (IsHTTPError_iff_not_plain sample.heap sample.wrapped_teapot)
    as (_ & Ht & _).
  apply Ht, H.
Defined.

Lemma bands_cover_200_to_510_witness :
  first_http sample.heap sample.wrapped_teapot
    {| Code := 418; Message := "I'm a teapot"; Meta := Some ∅; err := ErrNil |}
  /\ (IsSuccess sample.heap sample.wrapped_teapot = Ok true
      \/ IsRedirect sample.heap sample.wrapped_teapot = Ok true
      \/ IsClientError sample.heap sample.wrapped_teapot = Ok true
      \/ IsServerError sample.heap sample.wrapped_teapot = Ok true).
Proof.
  assert (H : first_http sample.heap sample.wrapped_teapot
    {| Code := 418; Message := "I'm a teapot"; Meta := Some ∅; err := ErrNil |}).
  { exists 2%positive. split; [reflexivity|exact sample_teapot_struct]. }
  split; [exact H|].
  apply (proj1 (bands_cover_200_to_510 _ _ _ H)). simpl. lia.
Defined.

Lemma named_status_implies_band_witness :
  IsForbidden sample.heap sample.wrapped_forbidden = Ok true
  /\ IsClientError sample.heap sample.wrapped_forbidden = Ok true
  /\ IsError sample.heap sample.wrapped_forbidden = Ok true.
Proof.
  assert (H : IsForbidden sample.heap sample.wrapped_forbidden = Ok true)
    by (vm_compute; reflexivity).
  split; [exact H|].
  apply (proj1 (proj2 (named_status_implies_band sample.heap
                         sample.wrapped_forbidden))).
  right. right. left. exact H.
Defined.

Lemma IsStatus_at_most_one_witness :
  IsStatus sample.heap sample.wrapped_teapot 418 = Ok true
  /\ IsStatus sample.heap sample.wrapped_teapot 400 = Ok false.
Proof.
  assert (H : IsStatus sample.heap sample.wrapped_teapot 418 = Ok true)
    by (vm_compute; reflexivity).
  split; [exact H|].
  exact (IsStatus_at_most_one sample.heap sample.wrapped_teapot 418 H 400).
Defined.

Lemma GetStatusCode_confirmed_by_IsStatus_witness :
  GetStatusCode sample.heap (ErrHTTP sample.forbidden.1) = Ok 403
  /\ 403 <> 500
  /\ IsStatus sample.heap (ErrHTTP sample.forbidden.1) 403 = Ok true.
Proof.
  assert (H1 : GetStatusCode sample.heap (ErrHTTP sample.forbidden.1) = Ok 403)
    by (vm_compute; reflexivity).
  assert (H2 : 403 <> 500) by lia.
  split; [exact H1|]. split; [exact H2|].
  exact (proj1 (GetStatusCode_confirmed_by_IsStatus sample.heap _ 403) H1 H2).
Defined.


Lemma join_first_http_child_decides_witness :
  Forall plain [sample.timeout; sample.query_timeout]
  /\ ~ plain sample.wrapped_teapot
  /\ IsStatus sample.heap
       (ErrJoin "several"
          ([sample.timeout; sample.query_timeout]
           ++ sample.wrapped_teapot :: [ErrHTTP sample.forbidden.1])) 418
     = IsStatus sample.heap sample.wrapped_teapot 418.
Proof.
  assert (H1 : Forall plain [sample.timeout; sample.query_timeout]).
  { repeat constructor. }
  assert (H2 : ~ plain sample.wrapped_teapot).
  { intros Hp. apply As_None_plain in Hp. discriminate Hp. }
  split; [exact H1|]. split; [exact H2|].
  destruct (join_first_http_child_decides sample.heap "several" _
              [ErrHTTP sample.forbidden.1] _ H1 H2) as (_ & Hs & _).
  exact (Hs 418).
Defined.

Lemma typed_nil_in_chain_witness :
  head (http_ptrs (ErrWrap "load: <nil>" (ErrHTTP None))) = Some None
  /\ IsHTTPError (ErrWrap "load: <nil>" (ErrHTTP None)) = true
  /\ IsStatus sample.heap (ErrWrap "load: <nil>" (ErrHTTP None)) 500 = Panic.
Proof.
  assert (H : head (http_ptrs (ErrWrap "load: <nil>" (ErrHTTP None))) = Some None)
    by reflexivity.
  split; [exact H|].
  destruct (typed_nil_in_chain sample.heap _ H) as (Hi & Hs & _).
  split; [exact Hi|exact (Hs 500)].
Defined.

Lemma AddMetaValue_touches_one_key_witness :
  sample.heap !! 2%positive =
    Some {| Code := 418; Message := "I'm a teapot"; Meta := Some ∅;
            err := ErrNil |}
  /\ AddMetaValue (Some 2%positive) "user_id" "123" sample.heap =
       Ok (Some 2%positive,
           <[2%positive := {| Code := 418; Message := "I'm a teapot";
                              Meta := Some (<["user_id" := "123"]> ∅);
                              err := ErrNil |}]> sample.heap)
  /\ forall l', l' <> 2%positive ->
       (<[2%positive := {| Code := 418; Message := "I'm a teapot";
                           Meta := Some (<["user_id" := "123"]> ∅);
                           err := ErrNil |}]> sample.heap) !! l'
       = sample.heap !! l'.
Proof.
  split; [exact sample_teapot_struct|]. split; [exact sample_teapot_tagged|].
  exact (proj2 (AddMetaValue_touches_one_key _ _ _ _ _ _ _ _
                  sample_teapot_struct eq_refl sample_teapot_tagged)).
Defined.

Lemma AddMetaValue_commutes_witness :
  "user_id"%string <> "trace"%string
  /\ ('(p, h1) ← AddMetaValue (Some 2%positive) "user_id" "123" sample.heap;
      AddMetaValue p "trace" "abc" h1)
     = ('(p, h1) ← AddMetaValue (Some 2%positive) "trace" "abc" sample.heap;
        AddMetaValue p "user_id" "123" h1).
Proof.
  assert (H : "user_id"%string <> "trace"%string) by discriminate.
  split; [exact H|].
  exact (AddMetaValue_commutes sample.heap (Some 2%positive) _ _ "123" "abc" H).
Defined.

Lemma AddMetaValue_keeps_inspection_witness :
  AddMetaValue (Some 2%positive) "user_id" "123" sample.heap =
    Ok (Some 2%positive,
        <[2%positive := {| Code := 418; Message := "I'm a teapot";
                           Meta := Some (<["user_id" := "123"]> ∅);
                           err := ErrNil |}]> sample.heap)
  /\ Error
       (<[2%positive := {| Code := 418; Message := "I'm a teapot";
                           Meta := Some (<["user_id" := "123"]> ∅);
                           err := ErrNil |}]> sample.heap) (Some 2%positive)
     = Error sample.heap (Some 2%positive).
Proof.
  split; [exact sample_teapot_tagged|].
  destruct (AddMetaValue_keeps_inspection _ _ _ _ _ _ sample_teapot_tagged
              ErrNil (Some 2%positive)) as (_ & _ & _ & _ & _ & _ & _ & He & _).
  exact He.
Defined.

Lemma Meta_is_never_nil_witness :
  meta_present sample.heap
  /\ exists h1, AddMetaValue (Some 1%positive) "user_id" "123" sample.heap
                = Ok (Some 1%positive, h1).
Proof.
  split; [exact sample_heap_meta_present|].
  destruct (Meta_is_never_nil sample.heap sample.heap None None) as (_ & Hall).
  destruct (Hall sample_heap_meta_present) as (_ & _ & _ & _ & Hr).
  apply Hr. exists {| Code := 510; Message := "not extended"; Meta := Some ∅;
                      err := ErrNil |}.
  vm_compute. reflexivity.
Defined.

Lemma NewHTTPErrorf_message_witness :
  lacks "%" "user " = true
  /\ lacks "%" " not found" = true
  /\ NewHTTPErrorf (any := string) 404 "user %d not found" [fmt.Int 123] ∅
     = Some (NewHTTPError 404 "user 123 not found" ∅).
Proof.
  assert (H1 : lacks "%" "user " = true) by reflexivity.
  assert (H2 : lacks "%" " not found" = true) by reflexivity.
  split; [exact H1|]. split; [exact H2|].
  exact (proj1 (proj2 (NewHTTPErrorf_message ∅ 404 _ _ H1 H2)) 123).
Defined.

Lemma Error_text_determines_code_and_message_witness :
  Error (NewHTTPError 510 "not extended" sample.heap).2 (Some 1%positive)
    = Ok "[510] HTTP Error: - not extended"
  /\ Error (NewHTTPError 510 "not extended" sample.heap).2 (Some 4%positive)
    = Ok "[510] HTTP Error: - not extended"
  /\ exists v1 v2 : @HTTPError string,
       deref (NewHTTPError 510 "not extended" sample.heap).2 (Some 1%positive)
         = Ok v1
       /\ deref (NewHTTPError 510 "not extended" sample.heap).2 (Some 4%positive)
         = Ok v2
       /\ Code v1 = Code v2 /\ Message v1 = Message v2.
Proof.
  assert (H1 : Error (NewHTTPError 510 "not extended" sample.heap).2
                 (Some 1%positive) = Ok "[510] HTTP Error: - not extended")
    by (vm_compute; reflexivity).
  assert (H2 : Error (NewHTTPError 510 "not extended" sample.heap).2
                 (Some 4%positive) = Ok "[510] HTTP Error: - not extended")
    by (vm_compute; reflexivity).
  split; [exact H1|]. split; [exact H2|].
  exact (proj2 (Error_text_determines_code_and_message _ _ _ _) H1 H2).
Defined.
